(** * Isomorphism.ts (fp-ts-std): isomorphisms between two types

    The module has one type, [Isomorphism<A, B>], a private helper
    [getIsoIso] and four exported operations: [toIso], [fromIso],
    [reverse] and [deriveSemigroup].  The embedding below follows the
    source definition by definition.

    - [Module Isomorphism] reads every TypeScript function as a Rocq
      function: the reading under which the equations of the module are
      stated.
    - [Module Throwing] reads every TypeScript function as a computation
      that either returns or throws, in call-by-value order: the reading
      under which "never throws" is a statement and not a convention. *)

From Stdlib Require Import Bool ZArith Lia.

Set Implicit Arguments.

(* ===================================================================== *)
(** ** The module, with functions read as functions                      *)
(* ===================================================================== *)

Module Isomorphism.

(** [export type Isomorphism<A, B> = { to: (x: A) => B; from: (x: B) => A }] *)
Record Isomorphism (A B : Type) : Type := {
  to : A -> B;
  from : B -> A
}.

(** monocle-ts [Iso<S, A>]: the two fields [get] and [reverseGet]. *)
Record Iso (S A : Type) : Type := {
  get : S -> A;
  reverseGet : A -> S
}.

(** fp-ts [Semigroup<A>]: the interface has the single field [concat];
    associativity is a law of the interface, not part of the value. *)
Record Semigroup (A : Type) : Type := {
  concat : A -> A -> A
}.

(** [const getIsoIso = <A, B>(): Isomorphism<Isomorphism<A, B>, Iso<A, B>>] *)
Definition getIsoIso (A B : Type) : Isomorphism (Isomorphism A B) (Iso A B) :=
  {| to := fun x => {| get := to x; reverseGet := from x |};
     from := fun x => {| to := get x; from := reverseGet x |} |}.

(** [toIso = x => getIsoIso<A, B>().to(x)] *)
Definition toIso {A B : Type} (x : Isomorphism A B) : Iso A B :=
  to (getIsoIso A B) x.

(** [fromIso = x => getIsoIso<A, B>().from(x)] *)
Definition fromIso {A B : Type} (x : Iso A B) : Isomorphism A B :=
  from (getIsoIso A B) x.

(** [reverse = x => ({ to: x.from, from: x.to })] *)
Definition reverse {A B : Type} (x : Isomorphism A B) : Isomorphism B A :=
  {| to := from x; from := to x |}.

(** [deriveSemigroup = x => S => ({ concat: (y, z) => x.to(S.concat(x.from(y), x.from(z))) })] *)
Definition deriveSemigroup {A B : Type} (x : Isomorphism A B)
  : Semigroup A -> Semigroup B :=
  fun S => {| concat := fun y z => to x (concat S (from x y) (from x z)) |}.

(** *** Laws the types do not carry *)

(** The bijection invariant of an [Isomorphism]: both round trips. *)
Definition LeftInverse {A B : Type} (i : Isomorphism A B) : Prop :=
  forall a : A, from i (to i a) = a.

Definition RightInverse {A B : Type} (i : Isomorphism A B) : Prop :=
  forall b : B, to i (from i b) = b.

Definition Bijection {A B : Type} (i : Isomorphism A B) : Prop :=
  LeftInverse i /\ RightInverse i.

(** The semigroup law. *)
Definition Associative {A : Type} (S : Semigroup A) : Prop :=
  forall x y z : A, concat S (concat S x y) z = concat S x (concat S y z).

(** Two structures behave identically when their fields agree on every
    input. *)
Definition SameIsomorphism {A B : Type} (i j : Isomorphism A B) : Prop :=
  (forall a, to i a = to j a) /\ (forall b, from i b = from j b).

Definition SameIso {A B : Type} (o p : Iso A B) : Prop :=
  (forall a, get o a = get p a) /\ (forall b, reverseGet o b = reverseGet p b).

(** *** The example of the documentation: [boolean] and [0 | 1] *)

(** [type Binary = 0 | 1] *)
Inductive Binary : Type := Zero | One.

(** The number a [Binary] is. *)
Definition Binary_number (n : Binary) : Z :=
  match n with Zero => 0%Z | One => 1%Z end.

(** [n => n === 1] *)
Definition is_one (n : Binary) : bool := Z.eqb (Binary_number n) 1.

(** JavaScript's [Boolean] on a number that is not NaN: false exactly at 0. *)
Definition Boolean (n : Binary) : bool := negb (Z.eqb (Binary_number n) 0).

(** [{ to: x => x ? 1 : 0, from: n => n === 1 }] *)
Definition isoBoolBinary : Isomorphism bool Binary :=
  {| to := fun x : bool => if x then One else Zero;
     from := is_one |}.

(** The same isomorphism as the doc comment of [deriveSemigroup] writes
    it: [{ to: x => x ? 1 : 0, from: Boolean }]. *)
Definition isoBoolBinary_doc : Isomorphism bool Binary :=
  {| to := fun x : bool => if x then One else Zero;
     from := Boolean |}.

(** fp-ts [boolean.SemigroupAll]: [concat: (first, second) => first && second]. *)
Definition SemigroupAll : Semigroup bool := {| concat := andb |}.

(** [Iso.deriveSemigroup(isoBoolBinary)(Bool.SemigroupAll)] *)
Definition semigroupBinaryAll : Semigroup Binary :=
  deriveSemigroup isoBoolBinary SemigroupAll.

(** *** A pair of functions that is not a bijection *)

(** [{ to: n => 2 * n, from: n => n }] on the integers. *)
Definition doubling : Isomorphism Z Z :=
  {| to := fun n => (2 * n)%Z; from := fun n => n |}.

(** Addition of integers, as a [Semigroup]. *)
Definition SemigroupSum : Semigroup Z := {| concat := Z.add |}.

(** *** Further laws a semigroup or an accessor may satisfy *)

Definition Commutative {A : Type} (S : Semigroup A) : Prop :=
  forall x y : A, concat S x y = concat S y x.

(** [e] is a two-sided identity of [concat]. *)
Definition Identity {A : Type} (S : Semigroup A) (e : A) : Prop :=
  forall x : A, concat S e x = x /\ concat S x e = x.

(** The two laws of a monocle-ts [Iso]. *)
Definition LawfulIso {S A : Type} (o : Iso S A) : Prop :=
  (forall s : S, reverseGet o (get o s) = s)
  /\ (forall a : A, get o (reverseGet o a) = a).

(** *** Pairs of functions that satisfy one half of the invariant *)

(** [{ to: x => x ? 1 : 0, from: n => n === 1 }] typed on [number]
    instead of [0 | 1]: [from] undoes [to], [to] does not undo [from]. *)
Definition isoBoolNumber : Isomorphism bool Z :=
  {| to := fun x : bool => if x then 1%Z else 0%Z;
     from := fun n => Z.eqb n 1 |}.

(** [{ to: n => n !== 2, from: x => x ? 1 : 2 }]: [to] undoes [from],
    [from] does not undo [to]. *)
Definition notTwo : Isomorphism Z bool :=
  {| to := fun n => negb (Z.eqb n 2);
     from := fun x : bool => if x then 1%Z else 2%Z |}.

End Isomorphism.

(* ===================================================================== *)
(** ** The module, with functions read as computations that may throw    *)
(* ===================================================================== *)

Module Throwing.

(** The outcome of evaluating an expression: a value, or a thrown one. *)
Inductive Completion (E A : Type) : Type :=
| Normal (a : A)
| Throw (e : E).
Arguments Normal {E A} a.
Arguments Throw {E A} e.

Definition ret {E A : Type} (a : A) : Completion E A := Normal a.

Definition bind {E A B : Type} (c : Completion E A) (k : A -> Completion E B)
  : Completion E B :=
  match c with
  | Normal a => k a
  | Throw e => Throw e
  end.

Declare Scope completion_scope.
Delimit Scope completion_scope with completion.
Notation "x <- c ;; k" := (bind c (fun x => k))
  (at level 61, c at next level, right associativity) : completion_scope.
Local Open Scope completion_scope.

Section Module_.

(** The type of thrown values. *)
Variable E : Type.
Local Abbreviation M := (Completion E).

Record Isomorphism (A B : Type) : Type := {
  to : A -> M B;
  from : B -> M A
}.

Record Iso (S A : Type) : Type := {
  get : S -> M A;
  reverseGet : A -> M S
}.

Record Semigroup (A : Type) : Type := {
  concat : A -> A -> M A
}.

(** The call [getIsoIso<A, B>()] evaluates an object literal of two
    arrow functions; each of them, called, evaluates an object literal
    of two property reads. *)
Definition getIsoIso (A B : Type) (_ : unit)
  : M (Isomorphism (Isomorphism A B) (Iso A B)) :=
  ret {| to := fun x => ret {| get := to x; reverseGet := from x |};
         from := fun x => ret {| to := get x; from := reverseGet x |} |}.

Definition toIso {A B : Type} (x : Isomorphism A B) : M (Iso A B) :=
  g <- getIsoIso A B tt ;; to g x.

Definition fromIso {A B : Type} (x : Iso A B) : M (Isomorphism A B) :=
  g <- getIsoIso A B tt ;; from g x.

Definition reverse {A B : Type} (x : Isomorphism A B) : M (Isomorphism B A) :=
  ret {| to := from x; from := to x |}.

(** Curried: the call on [x] returns a closure, the call of the closure
    on [S] returns an object whose [concat] evaluates [x.from(y)], then
    [x.from(z)], then [S.concat] on the two results, then [x.to]. *)
Definition deriveSemigroup {A B : Type} (x : Isomorphism A B)
  : M (Semigroup A -> M (Semigroup B)) :=
  ret (fun S =>
    ret {| concat := fun y z =>
             a1 <- from x y ;;
             a2 <- from x z ;;
             a <- concat S a1 a2 ;;
             to x a |}).

(** A computation returns when it completes normally. *)
Definition returned {A : Type} (c : M A) : bool :=
  match c with Normal _ => true | Throw _ => false end.

Definition Returns {A : Type} (c : M A) : Prop := exists a, c = Normal a.

(** A function value is total when every call of it returns. *)
Definition Total {A B : Type} (f : A -> M B) : Prop :=
  forall a, Returns (f a).

Definition Total2 {A B C : Type} (f : A -> B -> M C) : Prop :=
  forall a b, Returns (f a b).

(** Well-typed in the sense of the data model: pairs of total
    functions, a total binary operation. *)
Definition TotalIsomorphism {A B : Type} (x : Isomorphism A B) : Prop :=
  Total (to x) /\ Total (from x).

Definition TotalIso {A B : Type} (x : Iso A B) : Prop :=
  Total (get x) /\ Total (reverseGet x).

Definition TotalSemigroup {A : Type} (S : Semigroup A) : Prop :=
  Total2 (concat S).

(** The expression [deriveSemigroup(x)(S).concat(y, z)]: the two calls
    of the curried function, then the call of [concat]. *)
Definition derivedConcat {A B : Type} (x : Isomorphism A B) (S : Semigroup A)
  (y z : B) : M B :=
  d <- deriveSemigroup x ;;
  SB <- d S ;;
  concat SB y z.

End Module_.

Arguments ret {E A} a.

(** A pure structure, seen as one whose functions always return. *)
Definition liftIsomorphism (E : Type) {A B : Type}
  (i : Isomorphism.Isomorphism A B) : Isomorphism E A B :=
  {| to := fun a => ret (Isomorphism.to i a);
     from := fun b => ret (Isomorphism.from i b) |}.

Definition liftIso (E : Type) {A B : Type}
  (o : Isomorphism.Iso A B) : Iso E A B :=
  {| get := fun a => ret (Isomorphism.get o a);
     reverseGet := fun b => ret (Isomorphism.reverseGet o b) |}.

Definition liftSemigroup (E : Type) {A : Type}
  (S : Isomorphism.Semigroup A) : Semigroup E A :=
  {| concat := fun x y => ret (Isomorphism.concat S x y) |}.

(** [{ to: x => x ? 1 : 0, from: n => { if (n === 1) return true; throw e } }]:
    an isomorphism value whose [from] throws [e] at [0]. *)
Definition throwingAtZero (E : Type) (e : E)
  : Isomorphism E bool Isomorphism.Binary :=
  {| to := fun x : bool =>
             ret (if x then Isomorphism.One else Isomorphism.Zero);
     from := fun n =>
               match n with
               | Isomorphism.One => ret true
               | Isomorphism.Zero => Throw e
               end |}.

End Throwing.

Import Isomorphism.

(* ===================================================================== *)
(** ** Basic facts                                                       *)
(* ===================================================================== *)

(** Records have no eta rule here: equality with a rebuilt record goes by
    case analysis on the record. *)
Lemma Isomorphism_eta (A B : Type) (i : Isomorphism A B) :
  {| to := to i; from := from i |} = i.
Proof. destruct i as [f g]. reflexivity. Qed.

Lemma Iso_eta (A B : Type) (o : Iso A B) :
  {| get := get o; reverseGet := reverseGet o |} = o.
Proof. destruct o as [f g]. reflexivity. Qed.

Lemma fromIso_toIso (A B : Type) (i : Isomorphism A B) :
  fromIso (toIso i) = i.
Proof. unfold fromIso, toIso. cbn. apply Isomorphism_eta. Qed.

Lemma toIso_fromIso (A B : Type) (o : Iso A B) :
  toIso (fromIso o) = o.
Proof. unfold fromIso, toIso. cbn. apply Iso_eta. Qed.

Lemma reverse_reverse (A B : Type) (i : Isomorphism A B) :
  reverse (reverse i) = i.
Proof. unfold reverse. cbn. apply Isomorphism_eta. Qed.

(** The equation of the derived [concat], for rewriting. *)
Lemma deriveSemigroup_concat_eq (A B : Type)
  (i : Isomorphism A B) (S : Semigroup A) (y z : B) :
  concat (deriveSemigroup i S) y z = to i (concat S (from i y) (from i z)).
Proof. reflexivity. Qed.

(** Reversal exchanges the two halves of the bijection invariant. *)
Lemma reverse_LeftInverse (A B : Type) (i : Isomorphism A B) :
  RightInverse i -> LeftInverse (reverse i).
Proof. intros H b. exact (H b). Qed.

Lemma reverse_RightInverse (A B : Type) (i : Isomorphism A B) :
  LeftInverse i -> RightInverse (reverse i).
Proof. intros H a. exact (H a). Qed.

Lemma reverse_Bijection (A B : Type) (i : Isomorphism A B) :
  Bijection i -> Bijection (reverse i).
Proof.
  intros [Hl Hr]. split.
  - now apply reverse_LeftInverse.
  - now apply reverse_RightInverse.
Qed.

(** Associativity of the derived operation uses only one half of the
    invariant: [from] undoes [to]. *)
Lemma deriveSemigroup_Associative_left (A B : Type)
  (i : Isomorphism A B) (S : Semigroup A) :
  LeftInverse i -> Associative S -> Associative (deriveSemigroup i S).
Proof.
  intros Hl HS x y z. cbn.
  rewrite !Hl. f_equal. apply HS.
Qed.

(** The example isomorphism is a bijection, in both spellings of [from]. *)
Lemma is_one_Boolean (n : Binary) : is_one n = Boolean n.
Proof. destruct n; reflexivity. Qed.

Lemma isoBoolBinary_Bijection : Bijection isoBoolBinary.
Proof. split; intros []; reflexivity. Qed.

Lemma isoBoolBinary_doc_same : SameIsomorphism isoBoolBinary_doc isoBoolBinary.
Proof.
  split.
  - intros a. reflexivity.
  - intros b. cbn. symmetry. apply is_one_Boolean.
Qed.

Lemma SemigroupAll_Associative : Associative SemigroupAll.
Proof. intros x y z. cbn. symmetry. apply andb_assoc. Qed.

(** Without the invariant the derived operation can lose associativity:
    addition on the integers is associative, its derived operation along
    [doubling] is not. *)
Lemma SemigroupSum_Associative : Associative SemigroupSum.
Proof. intros x y z. cbn. lia. Qed.

Lemma doubling_not_LeftInverse : ~ LeftInverse doubling.
Proof. intros H. specialize (H 1%Z). discriminate H. Qed.

Lemma doubling_derived_not_Associative :
  ~ Associative (deriveSemigroup doubling SemigroupSum).
Proof. intros H. specialize (H 1%Z 0%Z 0%Z). discriminate H. Qed.

(* ===================================================================== *)
(** ** Facts of the throwing reading                                     *)
(* ===================================================================== *)

Section ThrowingFacts.

Variable E : Type.

Lemma Returns_returned (A : Type) (c : Throwing.Completion E A) :
  Throwing.Returns c <-> Throwing.returned c = true.
Proof.
  split.
  - intros [a ->]. reflexivity.
  - destruct c as [a | e]; [intros _; now exists a | discriminate].
Qed.

Lemma Returns_bind (A B : Type) (c : Throwing.Completion E A)
  (k : A -> Throwing.Completion E B) :
  Throwing.Returns c -> Throwing.Total k -> Throwing.Returns (Throwing.bind c k).
Proof. intros [a ->] Hk. cbn. apply Hk. Qed.

(** The four operations build their result without calling any function
    they were given: they return whatever those functions do. *)
Lemma toIso_returns (A B : Type) (x : Throwing.Isomorphism E A B) :
  Throwing.toIso x
  = Throwing.Normal {| Throwing.get := Throwing.to x;
                       Throwing.reverseGet := Throwing.from x |}.
Proof. reflexivity. Qed.

Lemma fromIso_returns (A B : Type) (o : Throwing.Iso E A B) :
  Throwing.fromIso o
  = Throwing.Normal {| Throwing.to := Throwing.get o;
                       Throwing.from := Throwing.reverseGet o |}.
Proof. reflexivity. Qed.

Lemma reverse_returns (A B : Type) (x : Throwing.Isomorphism E A B) :
  Throwing.reverse x
  = Throwing.Normal {| Throwing.to := Throwing.from x;
                       Throwing.from := Throwing.to x |}.
Proof. reflexivity. Qed.

Lemma deriveSemigroup_returns (A B : Type) (x : Throwing.Isomorphism E A B) :
  exists d, Throwing.deriveSemigroup x = Throwing.Normal d
            /\ forall S, Throwing.Returns (d S).
Proof.
  eexists. split; [reflexivity|].
  intros S. eexists. reflexivity.
Qed.

(** The derived [concat] calls the functions it was given, and returns
    when they do. *)
Lemma derived_concat_Total (A B : Type)
  (x : Throwing.Isomorphism E A B) (S : Throwing.Semigroup E A)
  (d : Throwing.Semigroup E A -> Throwing.Completion E (Throwing.Semigroup E B))
  (SB : Throwing.Semigroup E B) :
  Throwing.TotalIsomorphism x -> Throwing.TotalSemigroup S ->
  Throwing.deriveSemigroup x = Throwing.Normal d ->
  d S = Throwing.Normal SB ->
  Throwing.TotalSemigroup SB.
Proof.
  intros [Hto Hfrom] HS Hd HSB.
  injection Hd as <-. injection HSB as <-.
  intros y z. cbn.
  apply Returns_bind; [apply Hfrom|]. intros a1.
  apply Returns_bind; [apply Hfrom|]. intros a2.
  apply Returns_bind; [apply HS|]. intros a.
  apply Hto.
Qed.

(** The derived [concat] has no failure of its own: what it throws, one
    of the functions it was given has thrown. *)
Lemma derived_concat_Throw (A B : Type)
  (x : Throwing.Isomorphism E A B) (S : Throwing.Semigroup E A)
  (d : Throwing.Semigroup E A -> Throwing.Completion E (Throwing.Semigroup E B))
  (SB : Throwing.Semigroup E B) (y z : B) (e : E) :
  Throwing.deriveSemigroup x = Throwing.Normal d ->
  d S = Throwing.Normal SB ->
  Throwing.concat SB y z = Throwing.Throw e ->
  (exists b, Throwing.from x b = Throwing.Throw e)
  \/ (exists a1 a2, Throwing.concat S a1 a2 = Throwing.Throw e)
  \/ (exists a, Throwing.to x a = Throwing.Throw e).
Proof.
  intros Hd HSB. injection Hd as <-. injection HSB as <-. cbn.
  destruct (Throwing.from x y) as [a1 | e1] eqn:Hy; cbn.
  - destruct (Throwing.from x z) as [a2 | e2] eqn:Hz; cbn.
    + destruct (Throwing.concat S a1 a2) as [a | e3] eqn:Hc; cbn.
      * intros Ht. right. right. now exists a.
      * intros [= ->]. right. left. now exists a1, a2.
    + intros [= ->]. left. now exists z.
  - intros [= ->]. left. now exists y.
Qed.

(** On structures whose functions always return, the throwing reading
    computes what the functional reading does. *)
Lemma lift_toIso (A B : Type) (i : Isomorphism A B) :
  Throwing.toIso (Throwing.liftIsomorphism E i)
  = Throwing.Normal (Throwing.liftIso E (toIso i)).
Proof. reflexivity. Qed.

Lemma lift_fromIso (A B : Type) (o : Iso A B) :
  Throwing.fromIso (Throwing.liftIso E o)
  = Throwing.Normal (Throwing.liftIsomorphism E (fromIso o)).
Proof. reflexivity. Qed.

Lemma lift_reverse (A B : Type) (i : Isomorphism A B) :
  Throwing.reverse (Throwing.liftIsomorphism E i)
  = Throwing.Normal (Throwing.liftIsomorphism E (reverse i)).
Proof. reflexivity. Qed.

Lemma lift_deriveSemigroup (A B : Type) (i : Isomorphism A B) (S : Semigroup A) :
  Throwing.bind (Throwing.deriveSemigroup (Throwing.liftIsomorphism E i))
    (fun d => d (Throwing.liftSemigroup E S))
  = Throwing.Normal (Throwing.liftSemigroup E (deriveSemigroup i S)).
Proof. reflexivity. Qed.

Lemma liftIsomorphism_Total (A B : Type) (i : Isomorphism A B) :
  Throwing.TotalIsomorphism (Throwing.liftIsomorphism E i).
Proof. split; intros v; eexists; reflexivity. Qed.

Lemma liftIso_Total (A B : Type) (o : Iso A B) :
  Throwing.TotalIso (Throwing.liftIso E o).
Proof. split; intros v; eexists; reflexivity. Qed.

Lemma liftSemigroup_Total (A : Type) (S : Semigroup A) :
  Throwing.TotalSemigroup (Throwing.liftSemigroup E S).
Proof. intros v w; eexists; reflexivity. Qed.

End ThrowingFacts.

(* ===================================================================== *)
(** ** The operations, one by one                                        *)
(* ===================================================================== *)

(** C1. The derived semigroup combines two values of [B] by converting
    both to [A] with [from], combining them with the source [concat], and
    converting the result back with [to]:
    [deriveSemigroup(i)(S).concat(b1, b2) = i.to(S.concat(i.from(b1), i.from(b2)))]
    for every isomorphism [i], semigroup [S] and values [b1], [b2]. *)
Theorem deriveSemigroup_concat (A B : Type)
  (i : Isomorphism A B) (S : Semigroup A) (b1 b2 : B) :
  concat (deriveSemigroup i S) b1 b2
  = to i (concat S (from i b1) (from i b2)).
Proof. reflexivity. Qed.

(** C2. When [i] satisfies the bijection invariant (both round trips) and
    the [concat] of [S] is associative, the [concat] of
    [deriveSemigroup(i)(S)] is associative over [B]. *)
Theorem deriveSemigroup_Associative (A B : Type)
  (i : Isomorphism A B) (S : Semigroup A) :
  Bijection i ->
  Associative S ->
  forall x y z : B,
    concat (deriveSemigroup i S) (concat (deriveSemigroup i S) x y) z
    = concat (deriveSemigroup i S) x (concat (deriveSemigroup i S) y z).
Proof.
  intros [Hl _] HS.
  exact (deriveSemigroup_Associative_left Hl HS).
Qed.

Lemma deriveSemigroup_Associative_witness :
  Bijection isoBoolBinary
  /\ Associative SemigroupAll
  /\ forall x y z : Binary,
       concat (deriveSemigroup isoBoolBinary SemigroupAll)
         (concat (deriveSemigroup isoBoolBinary SemigroupAll) x y) z
       = concat (deriveSemigroup isoBoolBinary SemigroupAll) x
           (concat (deriveSemigroup isoBoolBinary SemigroupAll) y z).
Proof.
  split; [exact isoBoolBinary_Bijection|].
  split; [exact SemigroupAll_Associative|].
  apply (@deriveSemigroup_Associative bool Binary isoBoolBinary SemigroupAll).
  - exact isoBoolBinary_Bijection.
  - exact SemigroupAll_Associative.
Defined.

(** C3. [toIso(i)] is the accessor with [get = i.to] and
    [reverseGet = i.from], and [fromIso(o)] is the isomorphism with
    [to = o.get] and [from = o.reverseGet]: each conversion only renames
    the two function fields. *)
Theorem toIso_fromIso_relabel (A B : Type) :
  (forall i : Isomorphism A B,
     toIso i = {| get := to i; reverseGet := from i |}
     /\ get (toIso i) = to i
     /\ reverseGet (toIso i) = from i)
  /\ (forall o : Iso A B,
     fromIso o = {| to := get o; from := reverseGet o |}
     /\ to (fromIso o) = get o
     /\ from (fromIso o) = reverseGet o).
Proof. split; intros x; repeat split; reflexivity. Qed.

(** C4. The two conversions round-trip in either order:
    [fromIso(toIso(i))] has the [to] and [from] of [i] on every input, and
    [toIso(fromIso(o))] has the [get] and [reverseGet] of [o] on every
    input. *)
Theorem toIso_fromIso_roundtrip (A B : Type) :
  (forall (i : Isomorphism A B) (a : A) (b : B),
     to (fromIso (toIso i)) a = to i a
     /\ from (fromIso (toIso i)) b = from i b)
  /\ (forall (o : Iso A B) (a : A) (b : B),
     get (toIso (fromIso o)) a = get o a
     /\ reverseGet (toIso (fromIso o)) b = reverseGet o b).
Proof.
  split.
  - intros i a b. rewrite fromIso_toIso. split; reflexivity.
  - intros o a b. rewrite toIso_fromIso. split; reflexivity.
Qed.

(** C5. [reverse(i)] is the isomorphism between [B] and [A] whose [to] is
    [i.from] and whose [from] is [i.to], on every input. *)
Theorem reverse_swaps (A B : Type) (i : Isomorphism A B) :
  reverse i = {| to := from i; from := to i |}
  /\ (forall b : B, to (reverse i) b = from i b)
  /\ (forall a : A, from (reverse i) a = to i a).
Proof. repeat split. Qed.

(** C6. [reverse] is an involution: [reverse(reverse(i))] has the [to] of
    [i] on every [a] and the [from] of [i] on every [b]. *)
Theorem reverse_involutive (A B : Type) (i : Isomorphism A B) :
  (forall a : A, to (reverse (reverse i)) a = to i a)
  /\ (forall b : B, from (reverse (reverse i)) b = from i b).
Proof. rewrite reverse_reverse. split; reflexivity. Qed.

(** C7. For the isomorphism between [boolean] and [0 | 1] with
    [to = x => x ? 1 : 0] and [from = n => n === 1], and the logical-AND
    semigroup, the derived [concat] gives [concat(0, 1) = 0] and
    [concat(1, 1) = 1]. *)
Theorem semigroupBinaryAll_example :
  concat (deriveSemigroup isoBoolBinary SemigroupAll) Zero One = Zero
  /\ concat (deriveSemigroup isoBoolBinary SemigroupAll) One One = One.
Proof. split; reflexivity. Qed.

(** The example as the doc comment of [deriveSemigroup] asserts it, with
    [from: Boolean]. *)
Lemma semigroupBinaryAll_doc_example :
  concat (deriveSemigroup isoBoolBinary_doc SemigroupAll) Zero One = Zero
  /\ concat (deriveSemigroup isoBoolBinary_doc SemigroupAll) One One = One.
Proof. split; reflexivity. Qed.

(** C8. Every exported operation is total on well-typed inputs and never
    throws.  Well-typed is the data model's sense: the fields of an
    isomorphism and of an accessor are total functions and the [concat] of
    a semigroup is a total operation.  On such inputs [toIso], [fromIso]
    and [reverse] return a structure of total functions, [deriveSemigroup]
    returns a function that returns a semigroup, and the [concat] of that
    derived semigroup returns on every pair of arguments. *)
Theorem operations_never_throw (E A B : Type)
  (x : Throwing.Isomorphism E A B) (o : Throwing.Iso E A B)
  (S : Throwing.Semigroup E A) :
  Throwing.TotalIsomorphism x ->
  Throwing.TotalIso o ->
  Throwing.TotalSemigroup S ->
  (exists r, Throwing.toIso x = Throwing.Normal r /\ Throwing.TotalIso r)
  /\ (exists r, Throwing.fromIso o = Throwing.Normal r
                /\ Throwing.TotalIsomorphism r)
  /\ (exists r, Throwing.reverse x = Throwing.Normal r
                /\ Throwing.TotalIsomorphism r)
  /\ (exists d, Throwing.deriveSemigroup x = Throwing.Normal d
       /\ exists SB, d S = Throwing.Normal SB
            /\ forall y z : B, Throwing.Returns (Throwing.concat SB y z)).
Proof.
  intros Hx Ho HS.
  split; [|split; [|split]].
  - eexists. split; [apply toIso_returns|].
    destruct Hx as [Hto Hfrom]. split; assumption.
  - eexists. split; [apply fromIso_returns|].
    destruct Ho as [Hget Hrev]. split; assumption.
  - eexists. split; [apply reverse_returns|].
    destruct Hx as [Hto Hfrom]. split; assumption.
  - eexists. split; [reflexivity|].
    eexists. split; [reflexivity|].
    exact (derived_concat_Total (x := x) Hx HS eq_refl eq_refl).
Qed.

Lemma operations_never_throw_witness :
  Throwing.TotalIsomorphism (Throwing.liftIsomorphism unit isoBoolBinary)
  /\ Throwing.TotalIso (Throwing.liftIso unit (toIso isoBoolBinary))
  /\ Throwing.TotalSemigroup (Throwing.liftSemigroup unit SemigroupAll)
  /\ (exists r,
        Throwing.toIso (Throwing.liftIsomorphism unit isoBoolBinary)
        = Throwing.Normal r /\ Throwing.TotalIso r)
  /\ (exists r,
        Throwing.fromIso (Throwing.liftIso unit (toIso isoBoolBinary))
        = Throwing.Normal r /\ Throwing.TotalIsomorphism r)
  /\ (exists r,
        Throwing.reverse (Throwing.liftIsomorphism unit isoBoolBinary)
        = Throwing.Normal r /\ Throwing.TotalIsomorphism r)
  /\ (exists d,
        Throwing.deriveSemigroup (Throwing.liftIsomorphism unit isoBoolBinary)
        = Throwing.Normal d
        /\ exists SB,
             d (Throwing.liftSemigroup unit SemigroupAll) = Throwing.Normal SB
             /\ forall y z : Binary,
                  Throwing.Returns (Throwing.concat SB y z)).
Proof.
  assert (Hx : Throwing.TotalIsomorphism
                 (Throwing.liftIsomorphism unit isoBoolBinary))
    by (split; intros v; eexists; reflexivity).
  assert (Ho : Throwing.TotalIso (Throwing.liftIso unit (toIso isoBoolBinary)))
    by (split; intros v; eexists; reflexivity).
  assert (HS : Throwing.TotalSemigroup (Throwing.liftSemigroup unit SemigroupAll))
    by (intros v w; eexists; reflexivity).
  split; [exact Hx|]. split; [exact Ho|]. split; [exact HS|].
  exact (operations_never_throw Hx Ho HS).
Defined.

(** C9. [reverse] and [deriveSemigroup] compose to derive a semigroup in
    the opposite direction: for a semigroup [S] over [B],
    [deriveSemigroup(reverse(x))(S).concat(a1, a2)
     = x.from(S.concat(x.to(a1), x.to(a2)))]. *)
Theorem deriveSemigroup_reverse_concat (A B : Type)
  (x : Isomorphism A B) (S : Semigroup B) (a1 a2 : A) :
  concat (deriveSemigroup (reverse x) S) a1 a2
  = from x (concat S (to x a1) (to x a2)).
Proof. reflexivity. Qed.

(** C10. [getIsoIso] satisfies the bijection invariant of the type it
    inhabits, up to behaviour: [getIsoIso().from(getIsoIso().to(x))] has
    the [to] and [from] of [x] on every input, and
    [getIsoIso().to(getIsoIso().from(y))] has the [get] and [reverseGet]
    of [y] on every input. *)
Theorem getIsoIso_roundtrip (A B : Type) :
  (forall x : Isomorphism A B,
     (forall a : A, to (from (getIsoIso A B) (to (getIsoIso A B) x)) a = to x a)
     /\ (forall b : B,
           from (from (getIsoIso A B) (to (getIsoIso A B) x)) b = from x b))
  /\ (forall y : Iso A B,
     (forall a : A, get (to (getIsoIso A B) (from (getIsoIso A B) y)) a = get y a)
     /\ (forall b : B,
           reverseGet (to (getIsoIso A B) (from (getIsoIso A B) y)) b
           = reverseGet y b)).
Proof. split; intros s; split; intros v; reflexivity. Qed.

(** In this embedding the invariant of [getIsoIso] holds as an equality
    of structures. *)
Lemma getIsoIso_Bijection (A B : Type) : Bijection (getIsoIso A B).
Proof.
  split.
  - intros x. exact (fromIso_toIso x).
  - intros y. exact (toIso_fromIso y).
Qed.

(* ===================================================================== *)
(** ** How the operations act on the laws                                *)
(* ===================================================================== *)

(** X1. [reverse] exchanges the two halves of the bijection invariant, so
    [reverse(i)] satisfies the invariant exactly when [i] does. *)
Theorem reverse_Bijection_iff (A B : Type) (i : Isomorphism A B) :
  (LeftInverse (reverse i) <-> RightInverse i)
  /\ (RightInverse (reverse i) <-> LeftInverse i)
  /\ (Bijection (reverse i) <-> Bijection i).
Proof.
  assert (HL : LeftInverse (reverse i) <-> RightInverse i).
  { split; intros H b; exact (H b). }
  assert (HR : RightInverse (reverse i) <-> LeftInverse i).
  { split; intros H a; exact (H a). }
  split; [exact HL|]. split; [exact HR|].
  unfold Bijection. rewrite HL, HR. split; intros [H1 H2]; split; assumption.
Qed.

Lemma reverse_Bijection_iff_witness : Bijection (reverse isoBoolBinary).
Proof.
  apply (proj2 (proj2 (proj2 (reverse_Bijection_iff isoBoolBinary)))).
  split; intros []; reflexivity.
Defined.

(** X2. The conversions carry the invariant to the laws of the accessor
    and back: [toIso(i)] satisfies [reverseGet(get(s)) = s] and
    [get(reverseGet(a)) = a] exactly when [i] is a bijection, and
    [fromIso(o)] is a bijection exactly when [o] satisfies the two laws. *)
Theorem toIso_fromIso_laws (A B : Type) :
  (forall i : Isomorphism A B, LawfulIso (toIso i) <-> Bijection i)
  /\ (forall o : Iso A B, Bijection (fromIso o) <-> LawfulIso o).
Proof.
  split.
  - intros i. split; intros [H1 H2]; split; intros v; first [apply H1 | apply H2].
  - intros o. split; intros [H1 H2]; split; intros v; first [apply H1 | apply H2].
Qed.

Lemma toIso_fromIso_laws_witness : LawfulIso (toIso isoBoolBinary).
Proof.
  apply (proj2 (proj1 (toIso_fromIso_laws bool Binary) isoBoolBinary)).
  split; intros []; reflexivity.
Defined.

(** X3. Associativity of the derived operation needs one half of the
    invariant only: when [i.from(i.to(a)) = a] for every [a] and the
    [concat] of [S] is associative, the [concat] of
    [deriveSemigroup(i)(S)] is associative, whether or not [i.to] undoes
    [i.from]. *)
Theorem deriveSemigroup_Associative_LeftInverse (A B : Type)
  (i : Isomorphism A B) (S : Semigroup A) :
  LeftInverse i ->
  Associative S ->
  forall x y z : B,
    concat (deriveSemigroup i S) (concat (deriveSemigroup i S) x y) z
    = concat (deriveSemigroup i S) x (concat (deriveSemigroup i S) y z).
Proof.
  intros Hl HS x y z.
  rewrite !deriveSemigroup_concat_eq, !Hl.
  f_equal. apply HS.
Qed.

Lemma deriveSemigroup_Associative_LeftInverse_witness :
  LeftInverse isoBoolNumber
  /\ ~ RightInverse isoBoolNumber
  /\ forall x y z : Z,
       concat (deriveSemigroup isoBoolNumber SemigroupAll)
         (concat (deriveSemigroup isoBoolNumber SemigroupAll) x y) z
       = concat (deriveSemigroup isoBoolNumber SemigroupAll) x
           (concat (deriveSemigroup isoBoolNumber SemigroupAll) y z).
Proof.
  assert (Hl : LeftInverse isoBoolNumber) by (intros []; reflexivity).
  split; [exact Hl|].
  split; [intros H; specialize (H 5%Z); discriminate H|].
  apply (@deriveSemigroup_Associative_LeftInverse bool Z isoBoolNumber
           SemigroupAll Hl).
  intros x y z. cbn. symmetry. apply andb_assoc.
Defined.

(** X4. The other half of the invariant does not give associativity: there
    are a pair of functions with [to(from(b)) = b] for every [b] and an
    associative [concat] whose derived operation is not associative
    ([notTwo] with addition derives NAND on the booleans). *)
Theorem deriveSemigroup_RightInverse_not_enough :
  exists (i : Isomorphism Z bool) (S : Semigroup Z),
    RightInverse i /\ Associative S /\ ~ Associative (deriveSemigroup i S).
Proof.
  exists notTwo, SemigroupSum.
  split; [intros []; reflexivity|].
  split; [intros x y z; cbn; lia|].
  intros H. specialize (H true true false). discriminate H.
Qed.

(** X5. Commutativity passes to the derived operation for any pair of
    functions, bijection or not. *)
Theorem deriveSemigroup_Commutative (A B : Type)
  (i : Isomorphism A B) (S : Semigroup A) :
  Commutative S ->
  forall y z : B,
    concat (deriveSemigroup i S) y z = concat (deriveSemigroup i S) z y.
Proof.
  intros HS y z.
  rewrite !deriveSemigroup_concat_eq. f_equal. apply HS.
Qed.

Lemma deriveSemigroup_Commutative_witness :
  Commutative SemigroupSum
  /\ forall y z : Z,
       concat (deriveSemigroup doubling SemigroupSum) y z
       = concat (deriveSemigroup doubling SemigroupSum) z y.
Proof.
  assert (HS : Commutative SemigroupSum) by (intros x y; cbn; lia).
  split; [exact HS|].
  exact (@deriveSemigroup_Commutative Z Z doubling SemigroupSum HS).
Defined.

(** X6. When [from] undoes [to], the two functions of the isomorphism are
    homomorphisms between the source operation and the derived one:
    [to(S.concat(a1, a2)) = derived.concat(to(a1), to(a2))] and
    [from(derived.concat(b1, b2)) = S.concat(from(b1), from(b2))]. *)
Theorem deriveSemigroup_homomorphism (A B : Type)
  (i : Isomorphism A B) (S : Semigroup A) :
  LeftInverse i ->
  (forall a1 a2 : A,
     to i (concat S a1 a2)
     = concat (deriveSemigroup i S) (to i a1) (to i a2))
  /\ (forall b1 b2 : B,
     from i (concat (deriveSemigroup i S) b1 b2)
     = concat S (from i b1) (from i b2)).
Proof.
  intros Hl. split.
  - intros a1 a2. rewrite deriveSemigroup_concat_eq, !Hl. reflexivity.
  - intros b1 b2. rewrite deriveSemigroup_concat_eq, Hl. reflexivity.
Qed.

Lemma deriveSemigroup_homomorphism_witness :
  LeftInverse isoBoolNumber
  /\ (forall a1 a2 : bool,
        to isoBoolNumber (concat SemigroupAll a1 a2)
        = concat (deriveSemigroup isoBoolNumber SemigroupAll)
            (to isoBoolNumber a1) (to isoBoolNumber a2))
  /\ (forall b1 b2 : Z,
        from isoBoolNumber
          (concat (deriveSemigroup isoBoolNumber SemigroupAll) b1 b2)
        = concat SemigroupAll (from isoBoolNumber b1) (from isoBoolNumber b2)).
Proof.
  assert (Hl : LeftInverse isoBoolNumber) by (intros []; reflexivity).
  split; [exact Hl|].
  exact (@deriveSemigroup_homomorphism bool Z isoBoolNumber SemigroupAll Hl).
Defined.

(** X7. Deriving along [i] and then along [reverse(i)] gives back the
    source operation on every pair of arguments, when [from] undoes
    [to]. *)
Theorem deriveSemigroup_reverse_roundtrip (A B : Type)
  (i : Isomorphism A B) (S : Semigroup A) :
  LeftInverse i ->
  forall a1 a2 : A,
    concat (deriveSemigroup (reverse i) (deriveSemigroup i S)) a1 a2
    = concat S a1 a2.
Proof.
  intros Hl a1 a2.
  rewrite !deriveSemigroup_concat_eq. cbn.
  rewrite !Hl. reflexivity.
Qed.

Lemma deriveSemigroup_reverse_roundtrip_witness :
  LeftInverse isoBoolNumber
  /\ forall a1 a2 : bool,
       concat (deriveSemigroup (reverse isoBoolNumber)
                 (deriveSemigroup isoBoolNumber SemigroupAll)) a1 a2
       = concat SemigroupAll a1 a2.
Proof.
  assert (Hl : LeftInverse isoBoolNumber) by (intros []; reflexivity).
  split; [exact Hl|].
  exact (@deriveSemigroup_reverse_roundtrip bool Z isoBoolNumber
           SemigroupAll Hl).
Defined.

(** X8. Along a bijection an identity is carried over: when [e] is a
    two-sided identity of the [concat] of [S], [i.to(e)] is a two-sided
    identity of the derived [concat]. *)
Theorem deriveSemigroup_Identity (A B : Type)
  (i : Isomorphism A B) (S : Semigroup A) (e : A) :
  Bijection i ->
  Identity S e ->
  forall b : B,
    concat (deriveSemigroup i S) (to i e) b = b
    /\ concat (deriveSemigroup i S) b (to i e) = b.
Proof.
  intros [Hl Hr] He b.
  rewrite !deriveSemigroup_concat_eq, !Hl.
  destruct (He (from i b)) as [H1 H2].
  rewrite H1, H2, Hr. split; reflexivity.
Qed.

Lemma deriveSemigroup_Identity_witness :
  Bijection isoBoolBinary
  /\ Identity SemigroupAll true
  /\ forall b : Binary,
       concat (deriveSemigroup isoBoolBinary SemigroupAll) One b = b
       /\ concat (deriveSemigroup isoBoolBinary SemigroupAll) b One = b.
Proof.
  assert (Hi : Bijection isoBoolBinary) by (split; intros []; reflexivity).
  assert (He : Identity SemigroupAll true)
    by (intros []; split; reflexivity).
  split; [exact Hi|]. split; [exact He|].
  exact (@deriveSemigroup_Identity bool Binary isoBoolBinary SemigroupAll
           true Hi He).
Defined.

(* ===================================================================== *)
(** ** The derived [concat] when the supplied functions may throw        *)
(* ===================================================================== *)

(** X9. [deriveSemigroup(x)(S).concat(y, z)] returns [b] exactly when the
    four calls it makes all return: [x.from(y)] returns some [a1],
    [x.from(z)] some [a2], [S.concat(a1, a2)] some [a], and [x.to(a)]
    returns [b]. *)
Theorem derivedConcat_Normal_iff (E A B : Type)
  (x : Throwing.Isomorphism E A B) (S : Throwing.Semigroup E A)
  (y z b : B) :
  Throwing.derivedConcat x S y z = Throwing.Normal b
  <-> exists a1 a2 a : A,
        Throwing.from x y = Throwing.Normal a1
        /\ Throwing.from x z = Throwing.Normal a2
        /\ Throwing.concat S a1 a2 = Throwing.Normal a
        /\ Throwing.to x a = Throwing.Normal b.
Proof.
  unfold Throwing.derivedConcat. cbn.
  split.
  - destruct (Throwing.from x y) as [a1 | e1]; cbn; [|discriminate].
    destruct (Throwing.from x z) as [a2 | e2]; cbn; [|discriminate].
    destruct (Throwing.concat S a1 a2) as [a | e3] eqn:Hc; cbn; [|discriminate].
    intros Ht. exists a1, a2, a. repeat split; assumption.
  - intros (a1 & a2 & a & -> & -> & Hc & Ht). cbn.
    rewrite Hc. cbn. exact Ht.
Qed.

Lemma derivedConcat_Normal_iff_witness :
  Throwing.derivedConcat
    (Throwing.liftIsomorphism unit isoBoolBinary)
    (Throwing.liftSemigroup unit SemigroupAll) Zero One
  = Throwing.Normal Zero.
Proof.
  apply (proj2 (derivedConcat_Normal_iff
                  (Throwing.liftIsomorphism unit isoBoolBinary)
                  (Throwing.liftSemigroup unit SemigroupAll) Zero One Zero)).
  exists false, true, false. repeat split; reflexivity.
Defined.

(** X10. [deriveSemigroup(x)(S).concat(y, z)] throws [e] exactly when the
    first of its four calls that throws, in the order [x.from(y)],
    [x.from(z)], [S.concat], [x.to], throws [e]: the two calls of the
    curried function throw nothing themselves, and a throw of [x.from(y)]
    is the one that surfaces whatever [x.from(z)] does. *)
Theorem derivedConcat_Throw_iff (E A B : Type)
  (x : Throwing.Isomorphism E A B) (S : Throwing.Semigroup E A)
  (y z : B) (e : E) :
  Throwing.derivedConcat x S y z = Throwing.Throw e
  <-> Throwing.from x y = Throwing.Throw e
      \/ (exists a1 : A,
            Throwing.from x y = Throwing.Normal a1
            /\ Throwing.from x z = Throwing.Throw e)
      \/ (exists a1 a2 : A,
            Throwing.from x y = Throwing.Normal a1
            /\ Throwing.from x z = Throwing.Normal a2
            /\ Throwing.concat S a1 a2 = Throwing.Throw e)
      \/ (exists a1 a2 a : A,
            Throwing.from x y = Throwing.Normal a1
            /\ Throwing.from x z = Throwing.Normal a2
            /\ Throwing.concat S a1 a2 = Throwing.Normal a
            /\ Throwing.to x a = Throwing.Throw e).
Proof.
  unfold Throwing.derivedConcat. cbn.
  split.
  - destruct (Throwing.from x y) as [a1 | e1]; cbn.
    + destruct (Throwing.from x z) as [a2 | e2]; cbn.
      * destruct (Throwing.concat S a1 a2) as [a | e3] eqn:Hc; cbn.
        -- intros Ht. right. right. right.
           exists a1, a2, a. repeat split; assumption.
        -- intros [= ->]. right. right. left.
           exists a1, a2. repeat split; assumption.
      * intros [= ->]. right. left. exists a1. split; reflexivity.
    + intros [= ->]. left. reflexivity.
  - intros [Hy | [(a1 & Hy & Hz) | [(a1 & a2 & Hy & Hz & Hc)
                                   | (a1 & a2 & a & Hy & Hz & Hc & Ht)]]];
      rewrite Hy; cbn; try reflexivity;
      rewrite Hz; cbn; try reflexivity;
      rewrite Hc; cbn; try reflexivity.
    exact Ht.
Qed.

Lemma derivedConcat_Throw_iff_witness :
  Throwing.derivedConcat
    (Throwing.throwingAtZero true)
    (Throwing.liftSemigroup bool SemigroupAll) Zero Zero
  = Throwing.Throw true
  /\ Throwing.derivedConcat
       (Throwing.throwingAtZero true)
       (Throwing.liftSemigroup bool SemigroupAll) One Zero
     = Throwing.Throw true.
Proof.
  split.
  - apply (proj2 (derivedConcat_Throw_iff
                    (Throwing.throwingAtZero true)
                    (Throwing.liftSemigroup bool SemigroupAll)
                    Zero Zero true)).
    left. reflexivity.
  - apply (proj2 (derivedConcat_Throw_iff
                    (Throwing.throwingAtZero true)
                    (Throwing.liftSemigroup bool SemigroupAll)
                    One Zero true)).
    right. left. exists true. split; reflexivity.
Defined.
